(** * The ORCID provider of [@auth/core] ([providers/orcid.ts])

    A shallow embedding of the provider factory [ORCID], of its
    [profile] callback and of its [userinfo.request] override, with the
    properties its specification states about them. *)

From Stdlib Require Import List NArith Ascii String Bool.
Import ListNotations.

(** ** JavaScript strings

    A JavaScript string is a finite sequence of UTF-16 code units.  Every
    literal of [orcid.ts] is ASCII, so [js] maps a Rocq string literal to its
    code units one character at a time. *)

Module JsStr.

Definition code_unit := N.
Definition t := list code_unit.

Definition js (s : string) : t := map N_of_ascii (list_ascii_of_string s).

(** ECMAScript [WhiteSpace] and [LineTerminator] code points, the ones
    [String.prototype.trim] strips: TAB, LF, VT, FF, CR, SP, NBSP, U+1680,
    U+2000..U+200A, LS, PS, U+202F, U+205F, U+3000 and the BOM U+FEFF. *)
Definition is_white_space (c : code_unit) : bool :=
  ((9 <=? c) && (c <=? 13) || (c =? 32) || (c =? 160) || (c =? 5760)
   || (8192 <=? c) && (c <=? 8202) || (c =? 8232) || (c =? 8233)
   || (c =? 8239) || (c =? 8287) || (c =? 12288) || (c =? 65279))%N.

Fixpoint trimStart (s : t) : t :=
  match s with
  | c :: s' => if is_white_space c then trimStart s' else s
  | [] => []
  end.

Definition trimEnd (s : t) : t := rev (trimStart (rev s)).

(** [s.trim()] *)
Definition trim (s : t) : t := trimEnd (trimStart s).

(** [ToBoolean] on a value that is a string or [undefined]: [undefined] and
    the empty string are falsy, every other string is truthy. *)
Definition truthy (v : option t) : bool :=
  match v with
  | Some (_ :: _) => true
  | Some [] | None => false
  end.

(** [v || d], for [v] a string or [undefined] and [d] a string. *)
Definition or_else (v : option t) (d : t) : t :=
  match v with
  | Some (c :: s) => c :: s
  | Some [] | None => d
  end.

(** The value a template literal substitutes for [${v}]. *)
Definition interpolate (v : option t) : t :=
  match v with
  | Some s => s
  | None => js "undefined"
  end.

End JsStr.

Import JsStr.

Definition JsString : Type := JsStr.t.

(** ** The remote profile and the normalized identity *)

(** [interface ORCIDProfile] *)
Record ORCIDProfile := {
  sub : JsString;
  name : option JsString;
  email : option JsString;
  given_name : option JsString;
  family_name : option JsString;
  picture : option JsString;
  url : option JsString
}.

(** The object literal [profile] returns. *)
Record User := {
  user_id : JsString;
  user_name : JsString;
  user_email : option JsString;
  user_image : option JsString;
  user_url : JsString
}.

(** [profile(profile: P)] of the descriptor. *)
Definition profile (p : ORCIDProfile) : User :=
  {| user_id := sub p;
     user_name :=
       or_else (name p)
         (trim (or_else (given_name p) (js "Unknown") ++ js " "
                ++ or_else (family_name p) (js "")));
     user_email := email p;
     user_image := picture p;
     user_url := or_else (url p) (js "https://orcid.org/" ++ sub p) |}.

(** ** Promises and the network

    [fetch] is the only effect of the module.  A computation runs in a
    [World]: the log of the [fetch] calls made so far and the network, which
    answers a call, given the calls before it, by a response or by a
    rejection.  A call that returns is a fulfilled computation and one that
    throws a rejected one; a promise that rejects ends the computation it is
    awaited in, since [orcid.ts] has no [catch]. *)

Record JsError := {
  error_name : JsString;
  error_message : JsString
}.

Inductive Outcome (A : Type) :=
| Fulfilled (a : A)
| Rejected (e : JsError).
Arguments Fulfilled {A} a.
Arguments Rejected {A} e.

(** A value [JSON.parse] can produce; numbers are kept to the naturals. *)
#[local] Set Warnings "-register-all".
Inductive Json :=
| JNull
| JBool (b : bool)
| JNumber (n : N)
| JString (s : JsString)
| JArray (items : list Json)
| JObject (members : list (JsString * Json)).

(** The second argument of [fetch]. *)
Record RequestInit := {
  init_method : option JsString;
  init_headers : list (JsString * JsString)
}.

(** One call [fetch(input, init)]; [input] may be [undefined]. *)
Record FetchCall := {
  call_input : option JsString;
  call_init : RequestInit
}.

(** The method of the request a call makes: [GET] unless [init] names one. *)
Definition request_method (c : FetchCall) : JsString :=
  match init_method (call_init c) with
  | Some m => m
  | None => js "GET"
  end.

(** A [Response]: its status and what its [json()] method settles to (the
    parsed body, or the rejection of a body that is not JSON). *)
Record Response := {
  status : N;
  json : Outcome Json
}.

(** [res.ok] *)
Definition ok (res : Response) : bool :=
  ((200 <=? status res) && (status res <=? 299))%N.

Record World := {
  network : list FetchCall -> FetchCall -> Outcome Response;
  fetch_log : list FetchCall
}.

Definition Promise (A : Type) : Type := World -> Outcome A * World.

Definition resolve {A} (a : A) : Promise A := fun w => (Fulfilled a, w).

(** [p.then(k)], which is also [k (await p)]. *)
Definition andThen {A B} (p : Promise A) (k : A -> Promise B) : Promise B :=
  fun w =>
    match p w with
    | (Fulfilled a, w') => k a w'
    | (Rejected e, w') => (Rejected e, w')
    end.

(** [fetch(input, init)]: the call is logged and the network settles it. *)
Definition fetch (input : option JsString) (init : RequestInit)
  : Promise Response :=
  fun w =>
    let c := {| call_input := input; call_init := init |} in
    (network w (fetch_log w) c,
     {| network := network w; fetch_log := fetch_log w ++ [c] |}).

(** [res.json()] *)
Definition Response_json (res : Response) : Promise Json :=
  fun w => (json res, w).

(** ** The provider descriptor *)

(** The argument object of [userinfo.request], of which the source reads
    [tokens.access_token] and [provider.userinfo?.url]. *)
Record TokenSet := {
  access_token : option JsString
}.

Record ProviderUserinfo := {
  provider_userinfo_url : option JsString
}.

Record Provider := {
  provider_userinfo : option ProviderUserinfo
}.

Record RequestContext := {
  tokens : TokenSet;
  provider : Provider
}.

(** Modelled from the spec: the type [OAuthUserConfig] of the options, which
    [orcid.ts] imports from [./index.js].  The options carry the client id and
    the client secret and may override any default field (provider id and
    name, endpoint URLs, scope, response type, styling); every field is
    optional here, so that a record with no client id is a value too. *)
Module UserConfig.

Record Params := {
  scope : option JsString;
  response_type : option JsString
}.

Record Authorization := {
  url : option JsString;
  params : option Params
}.

Record Userinfo := {
  userinfo_url : option JsString
}.

Record Style := {
  bg : option JsString;
  text : option JsString
}.

Record t := {
  clientId : option JsString;
  clientSecret : option JsString;
  id : option JsString;
  name : option JsString;
  type : option JsString;
  authorization : option Authorization;
  token : option JsString;
  userinfo : option Userinfo;
  style : option Style
}.

End UserConfig.

Definition OAuthUserConfig : Type := UserConfig.t.

(** The object [ORCID] returns. *)
Module Config.

Record Params := {
  scope : JsString;
  response_type : JsString
}.

Record Authorization := {
  url : JsString;
  params : Params
}.

Record Userinfo := {
  userinfo_url : JsString;
  request : RequestContext -> Promise Json
}.

Record Style := {
  bg : JsString;
  text : JsString
}.

Record t := {
  id : JsString;
  name : JsString;
  type : JsString;
  authorization : Authorization;
  token : JsString;
  userinfo : Userinfo;
  profile : ORCIDProfile -> User;
  style : Style;
  options : OAuthUserConfig
}.

End Config.

Definition OAuthConfig : Type := Config.t.

(** [provider.userinfo?.url] *)
Definition userinfo_url_of (p : Provider) : option JsString :=
  match provider_userinfo p with
  | Some u => provider_userinfo_url u
  | None => None
  end.

(** [async request({ tokens, provider })] of the [userinfo] entry. *)
Definition request (ctx : RequestContext) : Promise Json :=
  andThen
    (fetch (userinfo_url_of (provider ctx))
       {| init_method := None;
          init_headers :=
            [(js "Authorization",
              js "Bearer " ++ interpolate (access_token (tokens ctx)))] |})
    (fun res => Response_json res).

(** [export default function ORCID(options)] *)
Definition ORCID (options : OAuthUserConfig) : OAuthConfig :=
  {| Config.id := js "orcid";
     Config.name := js "ORCID";
     Config.type := js "oauth";
     Config.authorization :=
       {| Config.url := js "https://orcid.org/oauth/authorize";
          Config.params :=
            {| Config.scope := js "openid email profile";
               Config.response_type := js "code" |} |};
     Config.token := js "https://orcid.org/oauth/token";
     Config.userinfo :=
       {| Config.userinfo_url := js "https://orcid.org/oauth/userinfo";
          Config.request := request |};
     Config.profile := profile;
     Config.style := {| Config.bg := js "#A6CE39"; Config.text := js "#fff" |};
     Config.options := options |}.

(** The fields of a descriptor that hold a string, by their path. *)
Inductive Field :=
| FId
| FName
| FType
| FAuthorizationUrl
| FScope
| FResponseType
| FToken
| FUserinfoUrl
| FStyleBg
| FStyleText.

(** The value a descriptor holds at a path. *)
Definition field (f : Field) (c : OAuthConfig) : JsString :=
  match f with
  | FId => Config.id c
  | FName => Config.name c
  | FType => Config.type c
  | FAuthorizationUrl => Config.url (Config.authorization c)
  | FScope => Config.scope (Config.params (Config.authorization c))
  | FResponseType =>
      Config.response_type (Config.params (Config.authorization c))
  | FToken => Config.token c
  | FUserinfoUrl => Config.userinfo_url (Config.userinfo c)
  | FStyleBg => Config.bg (Config.style c)
  | FStyleText => Config.text (Config.style c)
  end.

Definition bind_option {A B} (o : option A) (k : A -> option B) : option B :=
  match o with
  | Some a => k a
  | None => None
  end.

(** The value the caller's options hold at a path, if any. *)
Definition supplied (f : Field) (o : OAuthUserConfig) : option JsString :=
  match f with
  | FId => UserConfig.id o
  | FName => UserConfig.name o
  | FType => UserConfig.type o
  | FAuthorizationUrl => bind_option (UserConfig.authorization o) UserConfig.url
  | FScope =>
      bind_option (UserConfig.authorization o) (fun a =>
      bind_option (UserConfig.params a) UserConfig.scope)
  | FResponseType =>
      bind_option (UserConfig.authorization o) (fun a =>
      bind_option (UserConfig.params a) UserConfig.response_type)
  | FToken => UserConfig.token o
  | FUserinfoUrl => bind_option (UserConfig.userinfo o) UserConfig.userinfo_url
  | FStyleBg => bind_option (UserConfig.style o) UserConfig.bg
  | FStyleText => bind_option (UserConfig.style o) UserConfig.text
  end.

(** A descriptor with its [options] entry replaced. *)
Definition with_options (o : OAuthUserConfig) (c : OAuthConfig) : OAuthConfig :=
  {| Config.id := Config.id c;
     Config.name := Config.name c;
     Config.type := Config.type c;
     Config.authorization := Config.authorization c;
     Config.token := Config.token c;
     Config.userinfo := Config.userinfo c;
     Config.profile := Config.profile c;
     Config.style := Config.style c;
     Config.options := o |}.

(** ** Evaluating the body of [ORCID]

    A call of [ORCID] binds its parameter and evaluates the object literal of
    lines 70-102.  The literal is kept here as syntax and evaluated as a
    computation, in which an expression may throw and may call [fetch]. *)

(** The two methods of the literal, as function values. *)
Inductive Method :=
| RequestMethod (f : RequestContext -> Promise Json)
| ProfileMethod (f : ORCIDProfile -> User).

(** The values of the fragment; a promise is held with what it settles to. *)
Inductive Value :=
| VUndefined
| VString (s : JsString)
| VObject (props : list (JsString * Value))
| VFunction (m : Method)
| VPromise (settled : Outcome Response).

(** The expressions of the fragment: a string literal, an identifier, an
    object literal, a method definition and a call [fetch("...")]. *)
Inductive Expr :=
| EString (s : JsString)
| EVar (x : JsString)
| EObject (props : list (JsString * Expr))
| EMethod (m : Method)
| EFetch (input : JsString).

Fixpoint string_eqb (a b : JsString) : bool :=
  match a, b with
  | [], [] => true
  | c :: a', d :: b' => N.eqb c d && string_eqb a' b'
  | _, _ => false
  end.

(** The own property of an object under a key. *)
Fixpoint own_property (k : JsString) (props : list (JsString * Value))
  : option Value :=
  match props with
  | [] => None
  | (k', v) :: props' =>
      if string_eqb k' k then Some v else own_property k props'
  end.

(** Defining a property: a key already there keeps its place and gets the
    new value. *)
Fixpoint set_property (k : JsString) (v : Value)
  (props : list (JsString * Value)) : list (JsString * Value) :=
  match props with
  | [] => [(k, v)]
  | (k', v') :: props' =>
      if string_eqb k' k then (k', v) :: props'
      else (k', v') :: set_property k v props'
  end.

Definition throw {A} (e : JsError) : Promise A := fun w => (Rejected e, w).

Definition ReferenceError (x : JsString) : JsError :=
  {| error_name := js "ReferenceError";
     error_message := x ++ js " is not defined" |}.

(** Evaluation in a scope.  An identifier that is not bound throws; the
    initializers of an object literal run in order; a method definition
    yields the function and does not run it; a call of [fetch] is made when
    it is evaluated, and yields the promise. *)
Fixpoint eval (scope : list (JsString * Value)) (e : Expr) : Promise Value :=
  match e with
  | EString s => resolve (VString s)
  | EVar x =>
      match own_property x scope with
      | Some v => resolve v
      | None => throw (ReferenceError x)
      end
  | EObject props =>
      (fix eval_props (ps : list (JsString * Expr))
           (acc : list (JsString * Value)) : Promise Value :=
         match ps with
         | [] => resolve (VObject acc)
         | (k, e') :: ps' =>
             andThen (eval scope e')
               (fun v => eval_props ps' (set_property k v acc))
         end) props []
  | EMethod m => resolve (VFunction m)
  | EFetch input =>
      fun w =>
        let (settled, w') :=
          fetch (Some input) {| init_method := None; init_headers := [] |} w
        in (Fulfilled (VPromise settled), w')
  end.

(** The expression [ORCID] returns (lines 70-102). *)
Definition ORCID_body : Expr :=
  EObject
    [(js "id", EString (js "orcid"));
     (js "name", EString (js "ORCID"));
     (js "type", EString (js "oauth"));
     (js "authorization",
      EObject
        [(js "url", EString (js "https://orcid.org/oauth/authorize"));
         (js "params",
          EObject
            [(js "scope", EString (js "openid email profile"));
             (js "response_type", EString (js "code"))])]);
     (js "token", EString (js "https://orcid.org/oauth/token"));
     (js "userinfo",
      EObject
        [(js "url", EString (js "https://orcid.org/oauth/userinfo"));
         (js "request", EMethod (RequestMethod request))]);
     (js "profile", EMethod (ProfileMethod profile));
     (js "style",
      EObject
        [(js "bg", EString (js "#A6CE39"));
         (js "text", EString (js "#fff"))]);
     (js "options", EVar (js "options"))].

(** The call [ORCID(argument)]; a call without an argument binds
    [undefined]. *)
Definition call_ORCID (argument : Value) : Promise Value :=
  eval [(js "options", argument)] ORCID_body.

(** The properties that are present, in order. *)
Fixpoint present (props : list (JsString * option Value))
  : list (JsString * Value) :=
  match props with
  | [] => []
  | (k, Some v) :: props' => (k, v) :: present props'
  | (_, None) :: props' => present props'
  end.

Definition optional_string (v : option JsString) : option Value :=
  option_map VString v.

(** An options record as the object it stands for. *)
Definition options_value (o : OAuthUserConfig) : Value :=
  VObject
    (present
       [(js "clientId", optional_string (UserConfig.clientId o));
        (js "clientSecret", optional_string (UserConfig.clientSecret o));
        (js "id", optional_string (UserConfig.id o));
        (js "name", optional_string (UserConfig.name o));
        (js "type", optional_string (UserConfig.type o));
        (js "authorization",
         option_map
           (fun a =>
              VObject
                (present
                   [(js "url", optional_string (UserConfig.url a));
                    (js "params",
                     option_map
                       (fun q =>
                          VObject
                            (present
                               [(js "scope",
                                 optional_string (UserConfig.scope q));
                                (js "response_type",
                                 optional_string
                                   (UserConfig.response_type q))]))
                       (UserConfig.params a))]))
           (UserConfig.authorization o));
        (js "token", optional_string (UserConfig.token o));
        (js "userinfo",
         option_map
           (fun u =>
              VObject
                (present
                   [(js "url", optional_string (UserConfig.userinfo_url u))]))
           (UserConfig.userinfo o));
        (js "style",
         option_map
           (fun y =>
              VObject
                (present
                   [(js "bg", optional_string (UserConfig.bg y));
                    (js "text", optional_string (UserConfig.text y))]))
           (UserConfig.style o))]).

(** A descriptor as the object it stands for. *)
Definition config_value (c : OAuthConfig) : Value :=
  VObject
    [(js "id", VString (Config.id c));
     (js "name", VString (Config.name c));
     (js "type", VString (Config.type c));
     (js "authorization",
      VObject
        [(js "url", VString (Config.url (Config.authorization c)));
         (js "params",
          VObject
            [(js "scope",
              VString (Config.scope (Config.params (Config.authorization c))));
             (js "response_type",
              VString
                (Config.response_type
                   (Config.params (Config.authorization c))))])]);
     (js "token", VString (Config.token c));
     (js "userinfo",
      VObject
        [(js "url", VString (Config.userinfo_url (Config.userinfo c)));
         (js "request",
          VFunction (RequestMethod (Config.request (Config.userinfo c))))]);
     (js "profile", VFunction (ProfileMethod (Config.profile c)));
     (js "style",
      VObject
        [(js "bg", VString (Config.bg (Config.style c)));
         (js "text", VString (Config.text (Config.style c)))]);
     (js "options", options_value (Config.options c))].

(** A literal that reads an identifier no scope of [ORCID] binds, and one
    that calls [fetch] while it is built. *)
Definition unbound_body : Expr :=
  EObject [(js "id", EString (js "orcid")); (js "options", EVar (js "opts"))].

Definition fetching_body : Expr :=
  EObject
    [(js "id", EString (js "orcid"));
     (js "discovery", EFetch (js "https://orcid.org/oauth/userinfo"))].

(** ** Sample inputs *)

Definition bare_profile (id : JsString) : ORCIDProfile :=
  {| sub := id; name := None; email := None; given_name := None;
     family_name := None; picture := None; url := None |}.

Definition with_name (n : option JsString) (p : ORCIDProfile) : ORCIDProfile :=
  {| sub := sub p; name := n; email := email p; given_name := given_name p;
     family_name := family_name p; picture := picture p; url := url p |}.

Definition ada : ORCIDProfile :=
  with_name (Some (js "Ada Lovelace")) (bare_profile (js "0000-0001")).

Definition grace : ORCIDProfile :=
  {| sub := js "0000-0002"; name := None; email := None;
     given_name := Some (js "Grace"); family_name := Some (js "Hopper");
     picture := None; url := None |}.

Definition empty_given_name : ORCIDProfile :=
  {| sub := js "0000-0002"; name := None; email := None;
     given_name := Some (js ""); family_name := Some (js "Hopper");
     picture := None; url := None |}.

Definition with_url (u : option JsString) (p : ORCIDProfile) : ORCIDProfile :=
  {| sub := sub p; name := name p; email := email p;
     given_name := given_name p; family_name := family_name p;
     picture := picture p; url := u |}.

Definition no_overrides (cid sec : option JsString) : OAuthUserConfig :=
  {| UserConfig.clientId := cid; UserConfig.clientSecret := sec;
     UserConfig.id := None; UserConfig.name := None; UserConfig.type := None;
     UserConfig.authorization := None; UserConfig.token := None;
     UserConfig.userinfo := None; UserConfig.style := None |}.

Definition credentials : OAuthUserConfig :=
  no_overrides (Some (js "APP-ID")) (Some (js "APP-SECRET")).

Definition missing_client_id : OAuthUserConfig :=
  no_overrides None (Some (js "APP-SECRET")).

Definition custom_authorization_url : OAuthUserConfig :=
  {| UserConfig.clientId := Some (js "APP-ID");
     UserConfig.clientSecret := Some (js "APP-SECRET");
     UserConfig.id := None; UserConfig.name := None; UserConfig.type := None;
     UserConfig.authorization :=
       Some {| UserConfig.url := Some (js "https://example.org/authorize");
               UserConfig.params := None |};
     UserConfig.token := None; UserConfig.userinfo := None;
     UserConfig.style := None |}.

Definition login : RequestContext :=
  {| tokens := {| access_token := Some (js "t0k3n") |};
     provider :=
       {| provider_userinfo :=
            Some {| provider_userinfo_url :=
                      Some (js "https://orcid.org/oauth/userinfo") |} |} |}.

Definition invalid_token_body : Json :=
  JObject [(js "error", JString (js "invalid_token"))].

Definition unauthorized : Response :=
  {| status := 401; json := Fulfilled invalid_token_body |}.

(** A network that answers every call with [401] and a JSON error body. *)
Definition refusing_world : World :=
  {| network := fun _ _ => Fulfilled unauthorized; fetch_log := [] |}.

(** The call [request] makes for a token [t] and a user-info URL [u]. *)
Definition bearer_call (t u : JsString) : FetchCall :=
  {| call_input := Some u;
     call_init :=
       {| init_method := None;
          init_headers := [(js "Authorization", js "Bearer " ++ t)] |} |}.

(** ** Views of the inputs and of the calls *)

(** A field that holds the empty string, read as an absent field. *)
Definition blank_to_absent (v : option JsString) : option JsString :=
  match v with
  | Some [] => None
  | _ => v
  end.

(** A profile with its empty [name], [given_name], [family_name] and [url]
    read as absent; [email] and [picture] are left as they are. *)
Definition without_blanks (p : ORCIDProfile) : ORCIDProfile :=
  {| sub := sub p;
     name := blank_to_absent (name p);
     email := email p;
     given_name := blank_to_absent (given_name p);
     family_name := blank_to_absent (family_name p);
     picture := picture p;
     url := blank_to_absent (url p) |}.

(** The arguments [request] passes to [fetch] in a context. *)
Definition call_of (ctx : RequestContext) : FetchCall :=
  {| call_input := userinfo_url_of (provider ctx);
     call_init :=
       {| init_method := None;
          init_headers :=
            [(js "Authorization",
              js "Bearer " ++ interpolate (access_token (tokens ctx)))] |} |}.

(** A world whose network settles every call the same way. *)
Definition answering (a : Outcome Response) (w : World) : World :=
  {| network := fun _ _ => a; fetch_log := fetch_log w |}.

Definition with_status (st : N) (res : Response) : Response :=
  {| status := st; json := json res |}.

Definition empty_full_name : ORCIDProfile :=
  {| sub := js "0000-0005"; name := Some (js ""); email := None;
     given_name := Some (js "Grace"); family_name := Some (js "Hopper");
     picture := None; url := None |}.

Definition blank_names : ORCIDProfile :=
  {| sub := js "0000-0006"; name := None; email := None;
     given_name := Some (js " "); family_name := Some (js "  ");
     picture := None; url := None |}.

Definition given_only : ORCIDProfile :=
  {| sub := js "0000-0007"; name := None; email := None;
     given_name := Some (js "Grace"); family_name := Some (js "");
     picture := None; url := None |}.

Definition family_only : ORCIDProfile :=
  {| sub := js "0000-0008"; name := None; email := None;
     given_name := None; family_name := Some (js "Hopper");
     picture := None; url := None |}.

Definition login_without_token : RequestContext :=
  {| tokens := {| access_token := None |};
     provider := provider login |}.

Definition login_without_userinfo : RequestContext :=
  {| tokens := tokens login;
     provider := {| provider_userinfo := None |} |}.

(** ** Trimming *)

Lemma trimStart_keeps (c : code_unit) (s : JsStr.t) :
  is_white_space c = false -> trimStart (c :: s) = c :: s.
Proof.
  intros Hc. simpl. rewrite Hc. reflexivity.
Qed.

Lemma trimStart_head (s : JsStr.t) (c : code_unit) (r : JsStr.t) :
  trimStart s = c :: r -> is_white_space c = false.
Proof.
  induction s as [|a s IH]; simpl.
  - discriminate.
  - destruct (is_white_space a) eqn:Ha.
    + exact IH.
    + intros E. injection E as <- _. exact Ha.
Qed.

Lemma trimStart_snoc (s : JsStr.t) (c : code_unit) :
  is_white_space c = false -> exists r, trimStart (s ++ [c]) = r ++ [c].
Proof.
  intros Hc. induction s as [|a s IH]; simpl.
  - rewrite Hc. exists []. reflexivity.
  - destruct (is_white_space a).
    + exact IH.
    + exists (a :: s). reflexivity.
Qed.

Lemma trimEnd_head (c : code_unit) (s : JsStr.t) :
  is_white_space c = false -> exists r, trimEnd (c :: s) = c :: r.
Proof.
  intros Hc. unfold trimEnd. simpl rev.
  destruct (trimStart_snoc (rev s) c Hc) as [r Hr].
  rewrite Hr, rev_app_distr. exists (rev r). reflexivity.
Qed.

(** What [trim] returns starts with no white space. *)
Lemma trim_head (s : JsStr.t) (c : code_unit) (r : JsStr.t) :
  trim s = c :: r -> is_white_space c = false.
Proof.
  unfold trim. destruct (trimStart s) as [|a t] eqn:E.
  - discriminate.
  - pose proof (trimStart_head s a t E) as Ha.
    destruct (trimEnd_head a t Ha) as [r' Hr']. rewrite Hr'.
    intros E'. injection E' as <- _. exact Ha.
Qed.

(** A string with no white space at either end is left as it is. *)
Lemma trim_fixed (c d : code_unit) (s : JsStr.t) :
  is_white_space c = false -> is_white_space d = false ->
  trim (c :: s ++ [d]) = c :: s ++ [d].
Proof.
  intros Hc Hd. unfold trim. rewrite (trimStart_keeps c _ Hc).
  unfold trimEnd.
  replace (rev (c :: s ++ [d])) with (d :: rev s ++ [c]).
  - rewrite (trimStart_keeps d _ Hd). simpl.
    rewrite rev_app_distr, rev_involutive. reflexivity.
  - simpl. rewrite rev_app_distr. reflexivity.
Qed.

(** ** The [||] operator *)

Lemma or_else_truthy (v : option JsString) (d : JsString) :
  truthy v = true -> Some (or_else v d) = v.
Proof.
  destruct v as [[|c s]|]; simpl; intros H; try discriminate; reflexivity.
Qed.

Lemma or_else_falsy (v : option JsString) (d : JsString) :
  truthy v = false -> or_else v d = d.
Proof.
  destruct v as [[|c s]|]; simpl; intros H; try discriminate; reflexivity.
Qed.

Lemma or_else_nonempty (s d : JsString) :
  s <> [] -> or_else (Some s) d = s.
Proof.
  destruct s; [intros H; elim H; reflexivity | reflexivity].
Qed.

(** The fallback name of a given name and a family name that carry no outer
    white space is the two joined by a space. *)
Lemma fallback_name_clean (c d : code_unit) (g f : JsString) :
  is_white_space c = false -> is_white_space d = false ->
  trim (or_else (Some (c :: g)) (js "Unknown") ++ js " "
        ++ or_else (Some (f ++ [d])) (js ""))
  = (c :: g) ++ js " " ++ (f ++ [d]).
Proof.
  intros Hc Hd. rewrite !or_else_nonempty.
  - change ((c :: g) ++ js " " ++ f ++ [d])
      with (c :: (g ++ js " " ++ f ++ [d])).
    rewrite !app_assoc. rewrite <- !app_assoc with (n := f).
    rewrite !app_assoc. apply trim_fixed; assumption.
  - destruct f; discriminate.
  - discriminate.
Qed.

(** ** The descriptor *)

(** No field of the descriptor but [options] depends on the options. *)
Lemma ORCID_with_options (o o' : OAuthUserConfig) :
  with_options o' (ORCID o) = ORCID o'.
Proof. reflexivity. Qed.

Lemma ORCID_field_fixed (f : Field) (o o' : OAuthUserConfig) :
  field f (ORCID o) = field f (ORCID o').
Proof. destruct f; reflexivity. Qed.

(** C1: for options that carry a client id and a client secret and override
    none of the fields named, [ORCID options] has id ["orcid"], name
    ["ORCID"], type ["oauth"], scope ["openid email profile"] and response
    type ["code"]. *)
Theorem ORCID_defaults (options : OAuthUserConfig) (cid sec : JsString)
  (Hid : UserConfig.clientId options = Some cid)
  (Hsec : UserConfig.clientSecret options = Some sec)
  (Hkeep : forall f, In f [FId; FName; FType; FScope; FResponseType] ->
                     supplied f options = None) :
  let d := ORCID options in
  Config.id d = js "orcid"
  /\ Config.name d = js "ORCID"
  /\ Config.type d = js "oauth"
  /\ Config.scope (Config.params (Config.authorization d))
     = js "openid email profile"
  /\ Config.response_type (Config.params (Config.authorization d))
     = js "code".
Proof.
  simpl. repeat split; reflexivity.
Qed.

Lemma ORCID_defaults_witness :
  Config.id (ORCID credentials) = js "orcid"
  /\ Config.name (ORCID credentials) = js "ORCID"
  /\ Config.type (ORCID credentials) = js "oauth"
  /\ Config.scope (Config.params (Config.authorization (ORCID credentials)))
     = js "openid email profile"
  /\ Config.response_type
       (Config.params (Config.authorization (ORCID credentials)))
     = js "code".
Proof.
  apply (ORCID_defaults credentials (js "APP-ID") (js "APP-SECRET")).
  - reflexivity.
  - reflexivity.
  - intros f Hf. simpl in Hf.
    destruct Hf as [<-|[<-|[<-|[<-|[<-|[]]]]]]; reflexivity.
Defined.

(** C2, as stated, fails: options that supply [authorization.url] yield a
    descriptor whose [authorization.url] is still the ORCID endpoint. *)
Lemma ORCID_keeps_default_authorization_url :
  supplied FAuthorizationUrl custom_authorization_url
  = Some (js "https://example.org/authorize")
  /\ field FAuthorizationUrl (ORCID custom_authorization_url)
     = js "https://orcid.org/oauth/authorize"
  /\ field FAuthorizationUrl (ORCID custom_authorization_url)
     <> js "https://example.org/authorize".
Proof.
  split; [reflexivity|]. split; [reflexivity|]. vm_compute. discriminate.
Qed.

(** C2, amended: [ORCID options] keeps the options as they are in its
    [options] entry, so a value the caller supplied for a field is found
    there, and the field of the descriptor itself holds the default, the same
    for every options record. *)
Theorem ORCID_stores_options (options : OAuthUserConfig) (f : Field)
  (v : JsString) (Hv : supplied f options = Some v) :
  Config.options (ORCID options) = options
  /\ supplied f (Config.options (ORCID options)) = Some v
  /\ (forall o', field f (ORCID options) = field f (ORCID o'))
  /\ (forall o', with_options o' (ORCID options) = ORCID o').
Proof.
  split; [reflexivity|]. split; [exact Hv|]. split.
  - intros o'. apply ORCID_field_fixed.
  - intros o'. apply ORCID_with_options.
Qed.

Lemma ORCID_stores_options_witness :
  Config.options (ORCID custom_authorization_url) = custom_authorization_url
  /\ supplied FAuthorizationUrl
       (Config.options (ORCID custom_authorization_url))
     = Some (js "https://example.org/authorize")
  /\ (forall o', field FAuthorizationUrl (ORCID custom_authorization_url)
                 = field FAuthorizationUrl (ORCID o'))
  /\ (forall o', with_options o' (ORCID custom_authorization_url) = ORCID o').
Proof.
  apply (ORCID_stores_options custom_authorization_url FAuthorizationUrl).
  reflexivity.
Defined.

(** ** The normalized identity *)

(** C3, as stated, fails in its general part: a full name that is present
    and empty is not used as the name. *)
Lemma profile_empty_name_not_used :
  name (with_name (Some (js "")) (bare_profile (js "0000-0001")))
  = Some (js "")
  /\ user_name
       (profile (with_name (Some (js "")) (bare_profile (js "0000-0001"))))
     = js "Unknown"
  /\ user_name
       (profile (with_name (Some (js "")) (bare_profile (js "0000-0001"))))
     <> js "".
Proof.
  split; [reflexivity|]. split; [reflexivity|]. vm_compute. discriminate.
Qed.

(** C3, amended: the profile with subject identifier ["0000-0001"] and
    full name ["Ada Lovelace"] is normalized to id ["0000-0001"], name
    ["Ada Lovelace"] and url ["https://orcid.org/0000-0001"]; for every
    profile the id is the subject identifier, and a full name that is present
    and not empty is the name. *)
Theorem profile_id_and_full_name :
  profile ada
  = {| user_id := js "0000-0001"; user_name := js "Ada Lovelace";
       user_email := None; user_image := None;
       user_url := js "https://orcid.org/0000-0001" |}
  /\ (forall p, user_id (profile p) = sub p)
  /\ (forall p n, name p = Some n -> n <> [] -> user_name (profile p) = n).
Proof.
  split; [reflexivity|]. split; [reflexivity|].
  intros p n Hn Hne. unfold profile. cbn [user_name]. rewrite Hn.
  apply or_else_nonempty. exact Hne.
Qed.

Lemma profile_id_and_full_name_witness :
  user_id (profile ada) = js "0000-0001"
  /\ user_name (profile ada) = js "Ada Lovelace".
Proof.
  destruct profile_id_and_full_name as [_ [Hid Hname]]. split.
  - exact (Hid ada).
  - apply (Hname ada (js "Ada Lovelace")).
    + reflexivity.
    + discriminate.
Defined.

(** C4, as stated, fails: a given name that is present and empty is replaced
    by ["Unknown"], so the name is not the trimmed concatenation. *)
Lemma profile_empty_given_name_unknown :
  name empty_given_name = None
  /\ given_name empty_given_name = Some (js "")
  /\ family_name empty_given_name = Some (js "Hopper")
  /\ user_name (profile empty_given_name) = js "Unknown Hopper"
  /\ trim (js "" ++ js " " ++ js "Hopper") = js "Hopper"
  /\ user_name (profile empty_given_name)
     <> trim (js "" ++ js " " ++ js "Hopper").
Proof.
  repeat (split; [reflexivity|]). vm_compute. discriminate.
Qed.

(** C4, amended: with no full name, a given name that is present and not
    empty and a family name that is present, the name is the given name, a
    space and the family name, trimmed. *)
Theorem profile_given_family (p : ORCIDProfile) (g f : JsString)
  (Hn : name p = None) (Hg : given_name p = Some g) (Hg' : g <> [])
  (Hf : family_name p = Some f) :
  user_name (profile p) = trim (g ++ js " " ++ f).
Proof.
  unfold profile. cbn [user_name]. rewrite Hn, Hg, Hf.
  rewrite (or_else_nonempty g _ Hg').
  destruct f; reflexivity.
Qed.

Lemma profile_given_family_witness :
  user_name (profile grace) = js "Grace Hopper".
Proof.
  change (js "Grace Hopper") with (trim (js "Grace" ++ js " " ++ js "Hopper")).
  apply (profile_given_family grace (js "Grace") (js "Hopper")).
  - reflexivity.
  - reflexivity.
  - discriminate.
  - reflexivity.
Defined.

(** C5: with the full name, the given name and the family name all absent,
    the name is ["Unknown"]. *)
Theorem profile_unknown (p : ORCIDProfile)
  (Hn : name p = None) (Hg : given_name p = None)
  (Hf : family_name p = None) :
  user_name (profile p) = js "Unknown".
Proof.
  unfold profile. cbn [user_name]. rewrite Hn, Hg, Hf. reflexivity.
Qed.

Lemma profile_unknown_witness :
  user_name (profile (bare_profile (js "0000-0003"))) = js "Unknown".
Proof.
  apply (profile_unknown (bare_profile (js "0000-0003"))); reflexivity.
Defined.

(** C6, as stated, fails: a profile URL that is present and empty is not the
    url of the identity. *)
Lemma profile_empty_url_not_used :
  url (with_url (Some (js "")) (bare_profile (js "0000-0004")))
  = Some (js "")
  /\ user_url
       (profile (with_url (Some (js "")) (bare_profile (js "0000-0004"))))
     = js "https://orcid.org/0000-0004"
  /\ user_url
       (profile (with_url (Some (js "")) (bare_profile (js "0000-0004"))))
     <> js "".
Proof.
  split; [reflexivity|]. split; [reflexivity|]. vm_compute. discriminate.
Qed.

(** C6, amended: the url of the identity is the profile URL when that field
    is present and not empty, and ["https://orcid.org/"] followed by the
    subject identifier when it is absent. *)
Theorem profile_url (p : ORCIDProfile) :
  (forall u, url p = Some u -> u <> [] -> user_url (profile p) = u)
  /\ (url p = None -> user_url (profile p) = js "https://orcid.org/" ++ sub p).
Proof.
  unfold profile. cbn [user_url]. split.
  - intros u Hu Hne. rewrite Hu. apply or_else_nonempty. exact Hne.
  - intros Hu. rewrite Hu. reflexivity.
Qed.

Lemma profile_url_witness :
  user_url
    (profile
       (with_url (Some (js "https://example.org/x"))
          (bare_profile (js "0000-0004"))))
  = js "https://example.org/x"
  /\ user_url (profile (bare_profile (js "0000-0004")))
     = js "https://orcid.org/0000-0004".
Proof.
  split.
  - apply (proj1 (profile_url
                    (with_url (Some (js "https://example.org/x"))
                       (bare_profile (js "0000-0004"))))).
    + reflexivity.
    + discriminate.
  - apply (proj2 (profile_url (bare_profile (js "0000-0004")))).
    reflexivity.
Defined.

(** C9: a profile whose full name is present and empty is normalized as the
    same profile with the full name absent, that is, through the given-name
    and family-name fallback. *)
Theorem profile_empty_name_as_absent (p : ORCIDProfile)
  (Hn : name p = Some []) :
  profile p = profile (with_name None p)
  /\ user_name (profile p)
     = trim (or_else (given_name p) (js "Unknown") ++ js " "
             ++ or_else (family_name p) (js "")).
Proof.
  unfold profile. cbn [sub name email given_name family_name picture url
                       with_name].
  rewrite Hn. split; reflexivity.
Qed.

Lemma profile_empty_name_as_absent_witness :
  profile (with_name (Some []) grace) = profile (with_name None (with_name (Some []) grace))
  /\ user_name (profile (with_name (Some []) grace)) = js "Grace Hopper".
Proof.
  apply (profile_empty_name_as_absent (with_name (Some []) grace)).
  reflexivity.
Defined.

(** C10: a profile whose profile URL is present and empty gets the url
    ["https://orcid.org/"] followed by its subject identifier. *)
Theorem profile_empty_url_as_absent (p : ORCIDProfile)
  (Hu : url p = Some []) :
  user_url (profile p) = js "https://orcid.org/" ++ sub p.
Proof.
  unfold profile. cbn [user_url]. rewrite Hu. reflexivity.
Qed.

Lemma profile_empty_url_as_absent_witness :
  user_url (profile (with_url (Some []) (bare_profile (js "0000-0004"))))
  = js "https://orcid.org/0000-0004".
Proof.
  apply (profile_empty_url_as_absent
           (with_url (Some []) (bare_profile (js "0000-0004")))).
  reflexivity.
Defined.

(** ** Fetching the user info *)

Lemma request_run (ctx : RequestContext) (w : World) :
  let c :=
    {| call_input := userinfo_url_of (provider ctx);
       call_init :=
         {| init_method := None;
            init_headers :=
              [(js "Authorization",
                js "Bearer " ++ interpolate (access_token (tokens ctx)))] |}
    |} in
  request ctx w
  = (match network w (fetch_log w) c with
     | Fulfilled res => json res
     | Rejected e => Rejected e
     end,
     {| network := network w; fetch_log := fetch_log w ++ [c] |}).
Proof.
  unfold request, andThen, fetch, Response_json. cbv zeta.
  destruct (network w (fetch_log w) _); reflexivity.
Qed.

(** C7, as stated, fails: a response with status [401], which is not a 2xx
    status, and a JSON body fulfils the request with the parsed body. *)
Lemma request_fulfils_on_401 :
  network refusing_world (fetch_log refusing_world)
    (bearer_call (js "t0k3n") (js "https://orcid.org/oauth/userinfo"))
  = Fulfilled unauthorized
  /\ ok unauthorized = false
  /\ fst (request login refusing_world) = Fulfilled invalid_token_body
  /\ (forall e, fst (request login refusing_world) <> Rejected e).
Proof.
  split; [reflexivity|]. split; [reflexivity|]. split; [reflexivity|].
  intros e. discriminate.
Qed.

(** C7, amended: with an access token and a configured user-info URL,
    [request] makes exactly one [fetch] call, a [GET] of that URL with the
    header [Authorization: Bearer <access_token>], whatever the outcome; it is
    fulfilled with the parsed JSON body as [json()] gives it, whatever the
    status of the response, and it rejects with the error of the network or
    of the parsing when one of them fails. *)
Theorem request_single_fetch (ctx : RequestContext) (w : World)
  (t u : JsString)
  (Ht : access_token (tokens ctx) = Some t)
  (Hu : userinfo_url_of (provider ctx) = Some u) :
  let c := bearer_call t u in
  let answer := network w (fetch_log w) c in
  request_method c = js "GET"
  /\ fetch_log (snd (request ctx w)) = fetch_log w ++ [c]
  /\ network (snd (request ctx w)) = network w
  /\ (forall res v, answer = Fulfilled res -> json res = Fulfilled v ->
       fst (request ctx w) = Fulfilled v)
  /\ (forall e, answer = Rejected e -> fst (request ctx w) = Rejected e)
  /\ (forall res e, answer = Fulfilled res -> json res = Rejected e ->
       fst (request ctx w) = Rejected e).
Proof.
  intros c answer. rewrite request_run. cbv zeta. rewrite Ht, Hu.
  cbn [interpolate fst snd network fetch_log].
  fold (bearer_call t u). fold c. fold answer.
  split; [reflexivity|]. split; [reflexivity|]. split; [reflexivity|].
  split; [|split].
  - intros res v Ha Hj. rewrite Ha. exact Hj.
  - intros e Ha. rewrite Ha. reflexivity.
  - intros res e Ha Hj. rewrite Ha. exact Hj.
Qed.

Lemma request_single_fetch_witness :
  fetch_log (snd (request login refusing_world))
  = [bearer_call (js "t0k3n") (js "https://orcid.org/oauth/userinfo")]
  /\ fst (request login refusing_world) = Fulfilled invalid_token_body.
Proof.
  destruct (request_single_fetch login refusing_world
              (js "t0k3n") (js "https://orcid.org/oauth/userinfo")
              eq_refl eq_refl) as [_ [Hlog [_ [Hok _]]]].
  split.
  - exact Hlog.
  - apply (Hok unauthorized invalid_token_body); reflexivity.
Defined.

(** ** Construction *)

Lemma call_ORCID_run (argument : Value) (w : World) :
  call_ORCID argument w
  = (Fulfilled
       (VObject
          [(js "id", VString (js "orcid"));
           (js "name", VString (js "ORCID"));
           (js "type", VString (js "oauth"));
           (js "authorization",
            VObject
              [(js "url", VString (js "https://orcid.org/oauth/authorize"));
               (js "params",
                VObject
                  [(js "scope", VString (js "openid email profile"));
                   (js "response_type", VString (js "code"))])]);
           (js "token", VString (js "https://orcid.org/oauth/token"));
           (js "userinfo",
            VObject
              [(js "url", VString (js "https://orcid.org/oauth/userinfo"));
               (js "request", VFunction (RequestMethod request))]);
           (js "profile", VFunction (ProfileMethod profile));
           (js "style",
            VObject
              [(js "bg", VString (js "#A6CE39"));
               (js "text", VString (js "#fff"))]);
           (js "options", argument)]),
     w).
Proof. reflexivity. Qed.

(** The evaluation does throw on an identifier that is not bound. *)
Example unbound_body_throws (argument : Value) (w : World) :
  eval [(js "options", argument)] unbound_body w
  = (Rejected (ReferenceError (js "opts")), w).
Proof. reflexivity. Qed.

(** The evaluation does log a call of [fetch] made by an initializer. *)
Example fetching_body_fetches (argument : Value) (w : World) :
  fetch_log (snd (eval [(js "options", argument)] fetching_body w))
  = fetch_log w
    ++ [{| call_input := Some (js "https://orcid.org/oauth/userinfo");
           call_init := {| init_method := None; init_headers := [] |} |}].
Proof. reflexivity. Qed.

(** C8: for every argument, an options record with no client id and
    [undefined] among them, the call [ORCID(argument)] throws no error and
    makes no call of [fetch]: it is fulfilled with an object, in the world it
    started in, whose [options] property is the argument as given, unexamined;
    for an options record that object is the descriptor [ORCID options]. *)
Theorem ORCID_call_fulfils (argument : Value) (w : World) :
  exists props,
    call_ORCID argument w = (Fulfilled (VObject props), w)
    /\ fetch_log (snd (call_ORCID argument w)) = fetch_log w
    /\ own_property (js "options") props = Some argument
    /\ (forall o, argument = options_value o ->
                  VObject props = config_value (ORCID o))
    /\ call_ORCID (options_value missing_client_id) w
       = (Fulfilled (config_value (ORCID missing_client_id)), w)
    /\ UserConfig.clientId missing_client_id = None.
Proof.
  rewrite call_ORCID_run. eexists. split; [reflexivity|].
  split; [reflexivity|]. split; [reflexivity|]. split.
  - intros o ->. reflexivity.
  - split; reflexivity.
Qed.

Lemma ORCID_call_fulfils_witness :
  exists props,
    call_ORCID VUndefined refusing_world
    = (Fulfilled (VObject props), refusing_world)
    /\ own_property (js "options") props = Some VUndefined.
Proof.
  destruct (ORCID_call_fulfils VUndefined refusing_world)
    as [props [Hrun [_ [Hopt _]]]].
  exists props. split; [exact Hrun | exact Hopt].
Defined.

(** ** More on trimming *)

Lemma trimStart_nil_iff (s : JsStr.t) :
  trimStart s = [] <-> forallb is_white_space s = true.
Proof.
  induction s as [|a s IH]; simpl.
  - split; reflexivity.
  - destruct (is_white_space a); simpl.
    + exact IH.
    + split; discriminate.
Qed.

Lemma forallb_rev_eq (f : code_unit -> bool) (s : JsStr.t) :
  forallb f (rev s) = forallb f s.
Proof.
  induction s as [|a s IH]; simpl.
  - reflexivity.
  - rewrite forallb_app, IH. simpl.
    rewrite andb_true_r. apply andb_comm.
Qed.

Lemma trimStart_app_blank (a s : JsStr.t) :
  forallb is_white_space a = true -> trimStart (a ++ s) = trimStart s.
Proof.
  induction a as [|c a IH]; simpl.
  - reflexivity.
  - destruct (is_white_space c); simpl.
    + exact IH.
    + discriminate.
Qed.

Lemma trimStart_app_keep (s a : JsStr.t) :
  trimStart s <> [] -> trimStart (s ++ a) = trimStart s ++ a.
Proof.
  induction s as [|c s IH]; simpl.
  - intros H. elim H. reflexivity.
  - destruct (is_white_space c).
    + exact IH.
    + reflexivity.
Qed.

Lemma trimEnd_nil_iff (s : JsStr.t) :
  trimEnd s = [] <-> forallb is_white_space s = true.
Proof.
  unfold trimEnd. rewrite <- (forallb_rev_eq is_white_space s).
  rewrite <- trimStart_nil_iff. split.
  - intros H. apply (f_equal (@rev code_unit)) in H.
    rewrite rev_involutive in H. exact H.
  - intros H. rewrite H. reflexivity.
Qed.

Lemma trimEnd_app_blank (s a : JsStr.t) :
  forallb is_white_space a = true -> trimEnd (s ++ a) = trimEnd s.
Proof.
  intros Ha. unfold trimEnd. rewrite rev_app_distr.
  rewrite trimStart_app_blank.
  - reflexivity.
  - rewrite forallb_rev_eq. exact Ha.
Qed.

Lemma trim_nil_iff (s : JsStr.t) :
  trim s = [] <-> forallb is_white_space s = true.
Proof.
  unfold trim. rewrite trimEnd_nil_iff.
  destruct (trimStart s) as [|c r] eqn:E.
  - split; intros _.
    + apply trimStart_nil_iff. exact E.
    + reflexivity.
  - pose proof (trimStart_head s c r E) as Hc. simpl. rewrite Hc. simpl.
    split.
    + discriminate.
    + intros H. apply trimStart_nil_iff in H. rewrite H in E.
      discriminate.
Qed.

(** What [trim] returns ends with no white space. *)
Lemma trim_last (s r : JsStr.t) (d : code_unit) :
  trim s = r ++ [d] -> is_white_space d = false.
Proof.
  unfold trim, trimEnd. intros H.
  apply (f_equal (@rev code_unit)) in H.
  rewrite rev_involutive, rev_app_distr in H. simpl in H.
  exact (trimStart_head _ d (rev r) H).
Qed.

(** White space appended to a string does not change what [trim] returns. *)
Lemma trim_app_blank (s a : JsStr.t) :
  forallb is_white_space a = true -> trim (s ++ a) = trim s.
Proof.
  intros Ha. unfold trim.
  destruct (trimStart s) as [|c r] eqn:E.
  - rewrite trimStart_app_blank.
    + apply trimStart_nil_iff in Ha. rewrite Ha. reflexivity.
    + apply trimStart_nil_iff. exact E.
  - rewrite trimStart_app_keep.
    + rewrite E. apply trimEnd_app_blank. exact Ha.
    + rewrite E. discriminate.
Qed.

Lemma trimStart_fixed_app (g s : JsStr.t) :
  g <> [] -> trimStart g = g -> trimStart (g ++ s) = g ++ s.
Proof.
  intros Hne Hg. rewrite trimStart_app_keep.
  - rewrite Hg. reflexivity.
  - rewrite Hg. exact Hne.
Qed.

Lemma trimEnd_fixed_app (s f : JsStr.t) :
  f <> [] -> trimEnd f = f -> trimEnd (s ++ f) = s ++ f.
Proof.
  unfold trimEnd. intros Hne Hf.
  assert (Hr : trimStart (rev f) = rev f).
  { apply (f_equal (@rev code_unit)) in Hf.
    rewrite rev_involutive in Hf. exact Hf. }
  rewrite rev_app_distr, trimStart_fixed_app.
  - rewrite <- rev_app_distr. apply rev_involutive.
  - intros E. apply Hne. apply (f_equal (@rev code_unit)) in E.
    rewrite rev_involutive in E. exact E.
  - exact Hr.
Qed.

(** A string that starts and ends with a piece [trim] would keep is kept. *)
Lemma trim_fixed_app (g s f : JsStr.t) :
  g <> [] -> trimStart g = g -> f <> [] -> trimEnd f = f ->
  trim (g ++ s ++ f) = g ++ s ++ f.
Proof.
  intros Hg Hg' Hf Hf'. unfold trim.
  rewrite (trimStart_fixed_app g (s ++ f) Hg Hg').
  rewrite !app_assoc. apply trimEnd_fixed_app; assumption.
Qed.

(** ** The fallback name *)

Lemma profile_name_fallback (p : ORCIDProfile) :
  truthy (name p) = false ->
  user_name (profile p)
  = trim (or_else (given_name p) (js "Unknown") ++ js " "
          ++ or_else (family_name p) (js "")).
Proof.
  intros Hn. unfold profile. cbn [user_name].
  apply or_else_falsy. exact Hn.
Qed.

(** X1: when the full name is absent or empty, the name [profile] builds
    neither starts nor ends with white space. *)
Theorem profile_fallback_name_trimmed (p : ORCIDProfile)
  (Hn : truthy (name p) = false) :
  (forall c r, user_name (profile p) = c :: r -> is_white_space c = false)
  /\ (forall r d, user_name (profile p) = r ++ [d] ->
                 is_white_space d = false).
Proof.
  rewrite (profile_name_fallback p Hn). split.
  - intros c r H. exact (trim_head _ c r H).
  - intros r d H. exact (trim_last _ r d H).
Qed.

Lemma profile_fallback_name_trimmed_witness :
  is_white_space 71%N = false /\ is_white_space 114%N = false.
Proof.
  destruct (profile_fallback_name_trimmed grace eq_refl) as [Hhead Hlast].
  split.
  - apply (Hhead 71%N (js "race Hopper")). reflexivity.
  - apply (Hlast (js "Grace Hoppe") 114%N). reflexivity.
Defined.

(** X2: the name [profile] builds is empty exactly when the full name is
    absent or empty, the given name is a non-empty string of white space, and
    the family name, if present, is white space only. *)
Theorem profile_name_empty_iff (p : ORCIDProfile) :
  user_name (profile p) = []
  <-> truthy (name p) = false
      /\ (exists g, given_name p = Some g /\ g <> []
                    /\ forallb is_white_space g = true)
      /\ (forall f, family_name p = Some f ->
                    forallb is_white_space f = true).
Proof.
  split.
  - intros H.
    assert (Hn : truthy (name p) = false).
    { unfold profile in H. cbn [user_name] in H.
      destruct (name p) as [[|c s]|]; [reflexivity | discriminate H
                                      | reflexivity]. }
    split; [exact Hn|].
    rewrite (profile_name_fallback p Hn) in H.
    apply trim_nil_iff in H. rewrite !forallb_app in H.
    apply andb_true_iff in H. destruct H as [Hg H].
    apply andb_true_iff in H. destruct H as [_ Hf]. split.
    + destruct (given_name p) as [[|c g]|]; try discriminate Hg.
      exists (c :: g). split; [reflexivity|]. split; [discriminate|].
      exact Hg.
    + intros f Ef. rewrite Ef in Hf. destruct f; [reflexivity | exact Hf].
  - intros [Hn [[g [Eg [Hne Hg]]] Hf]].
    rewrite (profile_name_fallback p Hn). apply trim_nil_iff.
    rewrite !forallb_app, Eg, (or_else_nonempty g _ Hne), Hg. simpl.
    destruct (family_name p) as [[|c f]|]; try reflexivity.
    exact (Hf (c :: f) eq_refl).
Qed.

Lemma profile_name_empty_iff_witness :
  user_name (profile blank_names) = [].
Proof.
  apply (proj2 (profile_name_empty_iff blank_names)).
  split; [reflexivity|]. split.
  - exists (js " "). split; [reflexivity|]. split; [discriminate|].
    reflexivity.
  - intros f Hf. injection Hf as <-. reflexivity.
Defined.

(** X3: with the full name absent or empty, a non-empty given name with no
    leading white space and a non-empty family name with no trailing white
    space are joined by one space, nothing removed. *)
Theorem profile_clean_names_joined (p : ORCIDProfile) (g f : JsString)
  (Hn : truthy (name p) = false)
  (Hg : given_name p = Some g) (Hg1 : g <> []) (Hg2 : trimStart g = g)
  (Hf : family_name p = Some f) (Hf1 : f <> []) (Hf2 : trimEnd f = f) :
  user_name (profile p) = g ++ js " " ++ f.
Proof.
  rewrite (profile_name_fallback p Hn), Hg, Hf.
  rewrite (or_else_nonempty g _ Hg1), (or_else_nonempty f _ Hf1).
  apply trim_fixed_app; assumption.
Qed.

Lemma profile_clean_names_joined_witness :
  user_name (profile empty_full_name) = js "Grace Hopper".
Proof.
  apply (profile_clean_names_joined empty_full_name (js "Grace") (js "Hopper"));
    try reflexivity; discriminate.
Defined.

(** X4: with the full name and the family name absent or empty, a non-empty
    given name that [trim] leaves as it is becomes the name, with no space
    after it. *)
Theorem profile_given_name_only (p : ORCIDProfile) (g : JsString)
  (Hn : truthy (name p) = false)
  (Hg : given_name p = Some g) (Hg1 : g <> []) (Hg2 : trim g = g)
  (Hf : truthy (family_name p) = false) :
  user_name (profile p) = g.
Proof.
  rewrite (profile_name_fallback p Hn), Hg.
  rewrite (or_else_nonempty g _ Hg1), (or_else_falsy _ _ Hf).
  change (js " " ++ js "") with (js " ").
  rewrite trim_app_blank; [exact Hg2 | reflexivity].
Qed.

Lemma profile_given_name_only_witness :
  user_name (profile given_only) = js "Grace".
Proof.
  apply (profile_given_name_only given_only (js "Grace"));
    try reflexivity; discriminate.
Defined.

(** X5: with the full name and the given name absent or empty, a non-empty
    family name with no trailing white space gives the name ["Unknown "]
    followed by the family name. *)
Theorem profile_family_name_only (p : ORCIDProfile) (f : JsString)
  (Hn : truthy (name p) = false)
  (Hg : truthy (given_name p) = false)
  (Hf : family_name p = Some f) (Hf1 : f <> []) (Hf2 : trimEnd f = f) :
  user_name (profile p) = js "Unknown " ++ f.
Proof.
  rewrite (profile_name_fallback p Hn), Hf.
  rewrite (or_else_falsy _ _ Hg), (or_else_nonempty f _ Hf1).
  change (js "Unknown " ++ f) with (js "Unknown" ++ js " " ++ f).
  apply trim_fixed_app; try assumption.
  - discriminate.
  - reflexivity.
Qed.

Lemma profile_family_name_only_witness :
  user_name (profile family_only) = js "Unknown Hopper".
Proof.
  apply (profile_family_name_only family_only (js "Hopper"));
    try reflexivity; discriminate.
Defined.

(** ** Empty fields and the url *)

(** X6: the url of the identity is never empty: it is the profile URL, or
    ["https://orcid.org/"] followed by the subject identifier. *)
Theorem profile_url_nonempty (p : ORCIDProfile) :
  user_url (profile p) <> []
  /\ (url p = Some (user_url (profile p))
      \/ user_url (profile p) = js "https://orcid.org/" ++ sub p).
Proof.
  unfold profile. cbn [user_url].
  destruct (url p) as [[|c u]|]; simpl; split;
    try discriminate; try (right; reflexivity).
  left. reflexivity.
Qed.

(** X7: [profile] reads an empty [name], [given_name], [family_name] or
    [url] as an absent one, all four at once; [email] and [picture] are
    handed on as they are, empty or not. *)
Theorem profile_without_blanks (p : ORCIDProfile) :
  profile (without_blanks p) = profile p
  /\ user_email (profile p) = email p
  /\ user_image (profile p) = picture p.
Proof.
  split; [|split; reflexivity].
  unfold profile, without_blanks.
  cbn [sub name email given_name family_name picture url].
  destruct (name p) as [[|a n]|], (given_name p) as [[|b g]|],
    (family_name p) as [[|c f]|], (url p) as [[|d u]|]; reflexivity.
Qed.

(** ** More on fetching the user info *)

Lemma request_call_of (ctx : RequestContext) (w : World) :
  request ctx w
  = (match network w (fetch_log w) (call_of ctx) with
     | Fulfilled res => json res
     | Rejected e => Rejected e
     end,
     {| network := network w; fetch_log := fetch_log w ++ [call_of ctx] |}).
Proof.
  exact (request_run ctx w).
Qed.

(** X8: with no access token, [request] still makes its one call, a [GET]
    whose only header is [Authorization: Bearer undefined]. *)
Theorem request_without_token (ctx : RequestContext) (w : World)
  (Ht : access_token (tokens ctx) = None) :
  fetch_log (snd (request ctx w))
  = fetch_log w
    ++ [{| call_input := userinfo_url_of (provider ctx);
           call_init :=
             {| init_method := None;
                init_headers :=
                  [(js "Authorization", js "Bearer undefined")] |} |}]
  /\ request_method (call_of ctx) = js "GET".
Proof.
  rewrite request_call_of. cbn [snd fetch_log]. unfold call_of.
  rewrite Ht. split; reflexivity.
Qed.

Lemma request_without_token_witness :
  fetch_log (snd (request login_without_token refusing_world))
  = [{| call_input := Some (js "https://orcid.org/oauth/userinfo");
        call_init :=
          {| init_method := None;
             init_headers :=
               [(js "Authorization", js "Bearer undefined")] |} |}].
Proof.
  apply (proj1 (request_without_token login_without_token refusing_world
                  eq_refl)).
Defined.

(** X9: when the provider passed to it has no user-info URL, the [request]
    of the descriptor does not fall back to the URL of the descriptor: it
    calls [fetch] once with an undefined input and settles as that call
    does. *)
Theorem request_without_userinfo_url (options : OAuthUserConfig)
  (ctx : RequestContext) (w : World)
  (Hu : userinfo_url_of (provider ctx) = None) :
  let run := Config.request (Config.userinfo (ORCID options)) ctx w in
  fetch_log (snd run) = fetch_log w ++ [call_of ctx]
  /\ call_input (call_of ctx) = None
  /\ call_input (call_of ctx)
     <> Some (Config.userinfo_url (Config.userinfo (ORCID options)))
  /\ fst run = match network w (fetch_log w) (call_of ctx) with
               | Fulfilled res => json res
               | Rejected e => Rejected e
               end.
Proof.
  cbn [ORCID Config.userinfo Config.request Config.userinfo_url].
  cbv zeta. rewrite request_call_of. cbn [fst snd fetch_log].
  assert (Hin : call_input (call_of ctx) = None) by exact Hu.
  split; [reflexivity|]. split; [exact Hin|]. split; [|reflexivity].
  rewrite Hin. discriminate.
Qed.

Lemma request_without_userinfo_url_witness :
  fetch_log
    (snd (Config.request (Config.userinfo (ORCID credentials))
            login_without_userinfo refusing_world))
  = [call_of login_without_userinfo]
  /\ call_input (call_of login_without_userinfo) = None.
Proof.
  destruct (request_without_userinfo_url credentials login_without_userinfo
              refusing_world eq_refl) as [Hlog [Hin _]].
  split; [exact Hlog | exact Hin].
Defined.

(** X11: [request] never looks at the status of the response: answers that
    differ in their status only settle it the same way. *)
Theorem request_ignores_status (ctx : RequestContext) (w : World)
  (res : Response) (st : N) :
  fst (request ctx (answering (Fulfilled (with_status st res)) w))
  = fst (request ctx (answering (Fulfilled res) w))
  /\ fst (request ctx (answering (Fulfilled res) w)) = json res.
Proof.
  rewrite !request_call_of. split; reflexivity.
Qed.
